(** * NS stations: fetching and flattening station records (api.py)

    A shallow embedding of [get_ns_stations], [ns_data_to_dataframe] and the
    script entry point of [api.py].  Python objects are an inductive type,
    dictionaries decoded from JSON are finite maps with string keys, and
    exceptions are an explicit error result.  The network is an oracle for
    [requests.get]; [pd.DataFrame] is modelled with the type inference that
    pandas runs on each column. *)

From Stdlib Require Import ZArith Floats.SpecFloat.
From stdpp Require Import gmap strings list fin_maps pretty.

Set Warnings "-register-all".
Local Open Scope string_scope.

(** ** Python objects *)

Module Py.

(** The objects that [json.loads] produces, which are also the objects the
    fetcher passes as query parameters.  A [float] is an IEEE 754 binary64
    number, a [dict] decoded from JSON has string keys. *)
Inductive value : Type :=
  | VNone
  | VBool (b : bool)
  | VInt (z : Z)
  | VFloat (f : spec_float)
  | VStr (s : string)
  | VList (l : list value)
  | VDict (d : gmap string value).

(** [type(o).__name__] *)
Definition type_name (o : value) : string :=
  match o with
  | VNone => "NoneType"
  | VBool _ => "bool"
  | VInt _ => "int"
  | VFloat _ => "float"
  | VStr _ => "str"
  | VList _ => "list"
  | VDict _ => "dict"
  end.

(** [bool(o)]: the truth value tested by [if o:]. *)
Definition truthy (o : value) : bool :=
  match o with
  | VNone => false
  | VBool b => b
  | VInt z => negb (z =? 0)%Z
  | VFloat f =>
      match f with
      | S754_zero _ => false
      | _ => true
      end
  | VStr s => negb (String.eqb s "")
  | VList l => negb (bool_decide (l = []))
  | VDict d => negb (bool_decide (d = ∅))
  end.

(** [isinstance(o, bool)] *)
Definition is_bool (o : value) : bool :=
  match o with
  | VBool _ => true
  | _ => false
  end.

(** Exception classes that the program can meet; the last six are those of
    the [requests] package. *)
Inductive exn_class : Type :=
  | AttributeError
  | TypeError
  | ValueError
  | RequestException
  | HTTPError
  | ConnectionError
  | Timeout
  | TooManyRedirects
  | JSONDecodeError.

(** An exception object: its class and [str(e)]. *)
Record exn : Type := Exn { exn_cls : exn_class; exn_msg : string }.

(** [issubclass(c, requests.exceptions.RequestException)] *)
Definition is_RequestException (c : exn_class) : bool :=
  match c with
  | RequestException | HTTPError | ConnectionError | Timeout
  | TooManyRedirects | JSONDecodeError => true
  | AttributeError | TypeError | ValueError => false
  end.

(** [issubclass(c, requests.exceptions.HTTPError)] *)
Definition is_HTTPError (c : exn_class) : bool :=
  match c with
  | HTTPError => true
  | _ => false
  end.

(** The outcome of evaluating an expression: a value, or a raised exception. *)
Inductive result (A : Type) : Type :=
  | Ok (a : A)
  | Raise (e : exn).
Arguments Ok {A} a.
Arguments Raise {A} e.

Definition bind {A B : Type} (r : result A) (k : A → result B) : result B :=
  match r with
  | Ok a => k a
  | Raise e => Raise e
  end.

#[global] Instance result_bind : MBind result := λ A B k r, bind r k.
#[global] Instance result_ret : MRet result := λ A a, Ok a.

(** Evaluate a list of computations from left to right; the first exception
    ends the evaluation. *)
Fixpoint sequence {A : Type} (rs : list (result A)) : result (list A) :=
  match rs with
  | [] => Ok []
  | r :: rs' => a ← r; as' ← sequence rs'; Ok (a :: as')
  end.

Definition no_attribute (o : value) (attr : string) : exn :=
  Exn AttributeError
    ("'" +:+ type_name o +:+ "' object has no attribute '" +:+ attr +:+ "'").

Definition not_iterable (o : value) : exn :=
  Exn TypeError ("'" +:+ type_name o +:+ "' object is not iterable").

(** [o.get(k, dflt)]: only a [dict] has the method. *)
Definition get (o : value) (k : string) (dflt : value) : result value :=
  match o with
  | VDict d => Ok (default dflt (d !! k))
  | _ => Raise (no_attribute o "get")
  end.

(** The characters of a [str], each as a [str] of length one. *)
Fixpoint chars (s : string) : list value :=
  match s with
  | EmptyString => []
  | String c s' => VStr (String c EmptyString) :: chars s'
  end.

(** The items that [for x in o] visits.  A [dict] yields its keys; the order
    of the keys is that of the map, which no caller below can observe. *)
Definition iter (o : value) : result (list value) :=
  match o with
  | VList l => Ok l
  | VStr s => Ok (chars s)
  | VDict d => Ok (VStr <$> (map_to_list d).*1)
  | _ => Raise (not_iterable o)
  end.

(** A [dict] built by a display [{k1: e1, ...}]: the keys in insertion
    order with their values. *)
Definition record : Type := list (string * value).

(** Evaluation of a dict display whose keys are distinct literals: the value
    expressions are evaluated in the order written. *)
Definition dict_display (items : list (string * result value)) : result record :=
  vs ← sequence (items.*2); Ok (zip (items.*1) vs).

(** [r[k] = v]: a new key goes last, a known key keeps its place. *)
Fixpoint setitem (r : record) (k : string) (v : value) : record :=
  match r with
  | [] => [(k, v)]
  | (k', v') :: r' =>
      if String.eqb k' k then (k', v) :: r' else (k', v') :: setitem r' k v
  end.

(** [r[k]] for a record *)
Fixpoint item (r : record) (k : string) : option value :=
  match r with
  | [] => None
  | (k', v) :: r' => if String.eqb k' k then Some v else item r' k
  end.

End Py.

(** ** The part of pandas the program uses *)

Module pd.
Import Py.

(** A data frame: the column labels and, per row, one cell for each column,
    as the objects that reading the cell gives back. *)
Record frame : Type := Frame { columns : list string; rows : list (list value) }.

(** The float that stands for a missing value. *)
Definition NaN : value := VFloat S754_nan.

(** [pd.isna(o)] for a scalar: [None] and the NaN float are missing. *)
Definition isna (o : value) : bool :=
  match o with
  | VNone => true
  | VFloat S754_nan => true
  | _ => false
  end.

Definition is_none (o : value) : bool :=
  match o with
  | VNone => true
  | _ => false
  end.

Definition is_int (o : value) : bool :=
  match o with
  | VInt _ => true
  | _ => false
  end.

Definition is_float (o : value) : bool :=
  match o with
  | VFloat _ => true
  | _ => false
  end.

Definition is_str (o : value) : bool :=
  match o with
  | VStr _ => true
  | _ => false
  end.

(** A list or a dict: an object that no column type other than [object]
    can hold. *)
Definition is_container (o : value) : bool :=
  match o with
  | VList _ | VDict _ => true
  | _ => false
  end.

(** The binary64 number nearest to an integer (ties to even), as the
    conversion of an [int] to a float64 gives it. *)
Definition float_of_int (z : Z) : spec_float := binary_normalize 53 1024 z 0 false.

Definition INT64_MIN : Z := - 2 ^ 63.
Definition INT64_MAX : Z := 2 ^ 63 - 1.
Definition UINT64_MAX : Z := 2 ^ 64 - 1.

(** The scan of a column for integers that fit no 64-bit integer type: one
    beyond both ranges, or a negative one together with one above the signed
    range.  Integers that stand after a [None] are not looked at. *)
Fixpoint int_overflow (seen_null uint sint : bool) (col : list value) : bool :=
  match col with
  | [] => false
  | VNone :: col' => int_overflow true uint sint col'
  | VInt z :: col' =>
      if seen_null then int_overflow seen_null uint sint col'
      else
        let uint' := uint || ((INT64_MAX <? z) && (z <=? UINT64_MAX))%Z in
        let sint' := sint || ((INT64_MIN <=? z) && (z <? 0))%Z in
        if (uint' && sint') || (UINT64_MAX <? z)%Z || (z <? INT64_MIN)%Z
        then true
        else int_overflow seen_null uint' sint' col'
  | _ :: col' => int_overflow seen_null uint sint col'
  end.

(** A cell of a float64 column. *)
Definition to_float (o : value) : value :=
  match o with
  | VNone => NaN
  | VInt z => VFloat (float_of_int z)
  | _ => o
  end.

(** A cell of a string column. *)
Definition na_to_nan (o : value) : value :=
  match o with
  | VNone => NaN
  | _ => o
  end.

(** The type inference that the constructor runs on each column of objects,
    seen through the cells read back.
    - A column with a list or a dict, or with text next to anything but
      missing values, or with a boolean, keeps its objects.
    - A column of text and missing values keeps its objects too, unless
      pandas infers its string type ([infer_string], the default from
      pandas 3): then a missing value reads back as NaN.
    - A column of numbers and missing values becomes float64 when it holds a
      float, or an integer next to a [None]: [None] reads back as NaN and an
      integer as the nearest float.  Otherwise (integers only, or [None]
      only) it keeps its values. *)
Definition infer_column (infer_string : bool) (col : list value) : list value :=
  if existsb is_container col then col
  else if existsb is_str col then
    if infer_string && forallb (λ o, is_str o || isna o) col
    then na_to_nan <$> col
    else col
  else if existsb is_bool col then col
  else if int_overflow false false false col then col
  else if existsb is_float col || (existsb is_none col && existsb is_int col)
  then to_float <$> col
  else col.


Definition add_key (cols : list string) (k : string) : list string :=
  if bool_decide (k ∈ cols) then cols else cols ++ [k].

(** The keys of all records, each once, in order of first appearance. *)
Definition key_union (recs : list record) : list string :=
  foldl (λ cols r, foldl add_key cols (r.*1)) [] recs.

Definition align (cols : list string) (r : record) : list value :=
  (λ c, default NaN (item r c)) <$> cols.

(** Column [j] of a table of rows. *)
Definition column (j : nat) (table : list (list value)) : list value :=
  (λ row, nth j row NaN) <$> table.

(** A table of [n] columns after the inference on each of its columns. *)
Definition infer_table (infer_string : bool) (n : nat)
    (table : list (list value)) : list (list value) :=
  let cols := (λ j, infer_column infer_string (column j table)) <$> seq 0 n in
  (λ i, (λ col, nth i col NaN) <$> cols) <$> seq 0 (length table).

(** [pd.DataFrame(recs)] for a list of dicts: the columns are gathered from
    the keys of the records, so an empty list gives a frame without
    columns; a key that a record lacks is filled with NaN; the type of each
    column is then inferred from its objects. *)
Definition DataFrame (infer_string : bool) (recs : list record) : frame :=
  let cols := key_union recs in
  Frame cols (infer_table infer_string (length cols) (align cols <$> recs)).

(** [df.iloc[i][c]]: row [i] read by column label. *)
Definition cell (df : frame) (i : nat) (c : string) : option value :=
  row ← rows df !! i;
  item (zip (columns df) row) c.

End pd.

(** ** api.py *)

Module Api.
Import Py.

(** Lines 66-106. *)
Definition station_info (station : value) : result record :=
  dict_display [
    ("uicCode", get station "id" (VDict ∅) ≫= λ o, get o "uicCode" VNone);
    ("evaCode", get station "id" (VDict ∅) ≫= λ o, get o "evaCode" VNone);
    ("cdCode", get station "id" (VDict ∅) ≫= λ o, get o "cdCode" VNone);
    ("code", get station "id" (VDict ∅) ≫= λ o, get o "code" VNone);
    ("stationType", get station "stationType" VNone);
    ("name_long", get station "names" (VDict ∅) ≫= λ o, get o "long" VNone);
    ("name_medium", get station "names" (VDict ∅) ≫= λ o, get o "medium" VNone);
    ("name_short", get station "names" (VDict ∅) ≫= λ o, get o "short" VNone);
    ("name_festive", get station "names" (VDict ∅) ≫= λ o, get o "festive" VNone);
    ("synonyms", get station "names" (VDict ∅) ≫= λ o, get o "synonyms" (VList []));
    ("lat", get station "location" (VDict ∅) ≫= λ o, get o "lat" VNone);
    ("lng", get station "location" (VDict ∅) ≫= λ o, get o "lng" VNone);
    ("tracks", get station "tracks" (VList []));
    ("hasKnownFacilities", get station "hasKnownFacilities" VNone);
    ("availableForAccessibleTravel",
       get station "availableForAccessibleTravel" VNone);
    ("hasTravelAssistance", get station "hasTravelAssistance" VNone);
    ("areTracksIndependentlyAccessible",
       get station "areTracksIndependentlyAccessible" VNone);
    ("isBorderStop", get station "isBorderStop" VNone);
    ("country", get station "country" VNone);
    ("radius", get station "radius" VNone);
    ("approachingRadius", get station "approachingRadius" VNone);
    ("distance", get station "distance" VNone);
    ("startDate", get station "startDate" VNone);
    ("endDate", get station "endDate" VNone);
    ("nearbyMeLocationId_value",
       get station "nearbyMeLocationId" (VDict ∅) ≫= λ o, get o "value" VNone);
    ("nearbyMeLocationId_type",
       get station "nearbyMeLocationId" (VDict ∅) ≫= λ o, get o "type" VNone)
  ].

(** The [for station in ...] loop: [station_list] grows by one record per
    station visited. *)
Fixpoint for_stations (stations : list value) (station_list : list record)
    : result (list record) :=
  match stations with
  | [] => Ok station_list
  | station :: rest =>
      info ← station_info station;
      for_stations rest (station_list ++ [info])
  end.

(** Lines 56-106.  [infer_string] is the setting of pandas that the call of
    [pd.DataFrame] runs under. *)
Definition ns_data_to_dataframe (infer_string : bool) (data : value)
    : result pd.frame :=
  payload ← get data "payload" (VList []);
  stations ← iter payload;
  station_list ← for_stations stations [];
  Ok (pd.DataFrame infer_string station_list).

(** *** The fetcher and the network *)

(** What [requests.get(url, headers=headers, params=params)] is called with. *)
Record request : Type :=
  Request { req_url : string; req_headers : record; req_params : record }.

(** The part of a [requests.Response] the program looks at: the status line,
    the URL the response came from, and what [response.json()] evaluates
    to. *)
Record response : Type :=
  Response {
    status_code : Z;
    reason : string;
    url : string;
    json : result value
  }.

(** [response.raise_for_status()] of the requests package: statuses 400 to
    599 raise [HTTPError]. *)
Definition raise_for_status (r : response) : result unit :=
  if bool_decide (400 ≤ status_code r < 500)%Z then
    Raise (Exn HTTPError
             (pretty (status_code r) +:+ " Client Error: " +:+ reason r
                +:+ " for url: " +:+ url r))
  else if bool_decide (500 ≤ status_code r < 600)%Z then
    Raise (Exn HTTPError
             (pretty (status_code r) +:+ " Server Error: " +:+ reason r
                +:+ " for url: " +:+ url r))
  else Ok ().

(** What [print] is given: a string, or a data frame. *)
Inductive output : Type :=
  | OutStr (s : string)
  | OutFrame (df : pd.frame).

(** Lines 34-42. *)
Definition build_params (q include_non_plannable country_codes limit : value)
    : record :=
  let params := [] in
  let params := if truthy q then setitem params "q" q else params in
  let params :=
    if truthy include_non_plannable
    then setitem params "includeNonPlannableStations" (VStr "true")
    else params in
  let params :=
    if truthy country_codes
    then setitem params "countryCodes" country_codes
    else params in
  let params := if truthy limit then setitem params "limit" limit else params in
  params.

(** Lines 28-42: the request that is sent. *)
Definition stations_request
    (api_key : string) (q include_non_plannable country_codes limit : value)
    : request :=
  let url := "https://gateway.apiportal.ns.nl/nsapp-stations/v3" in
  let headers :=
    [("Ocp-Apim-Subscription-Key", VStr api_key);
     ("Content-Type", VStr "application/json")] in
  Request url headers (build_params q include_non_plannable country_codes limit).

(** Line 110. *)
Definition api_key : string := "a9dc5c210d1d4b4392769ca647458691".

Section Network.

(** The network as seen through [requests.get]: a response, or an exception
    of the requests package. *)
Variable requests_get : request → result response.

(** Lines 7-53.  The result is what was printed, and the value returned or
    the exception that escapes. *)
Definition get_ns_stations
    (api_key : string) (q include_non_plannable country_codes limit : value)
    : list output * result value :=
  let attempt :=
    response ← requests_get
      (stations_request api_key q include_non_plannable country_codes limit);
    _ ← raise_for_status response;
    json response in
  match attempt with
  | Ok body => ([], Ok body)
  | Raise err =>
      if is_HTTPError (exn_cls err) then
        ([OutStr ("HTTP error occurred: " +:+ exn_msg err)], Ok VNone)
      else if is_RequestException (exn_cls err) then
        ([OutStr ("Request error occurred: " +:+ exn_msg err)], Ok VNone)
      else ([], Raise err)
  end.

(** Lines 109-121, with the flattener that is called on a truthy fetch
    result as a parameter. *)
Definition main_with (flatten : value → result pd.frame)
    : list output * result unit :=
  let '(out, fetched) :=
    get_ns_stations api_key VNone (VBool false) (VStr "NL") VNone in
  match fetched with
  | Raise err => (out, Raise err)
  | Ok data =>
      if truthy data then
        match flatten data with
        | Raise err => (out, Raise err)
        | Ok df =>
            ((out ++ [OutStr "NS Stations DataFrame:"; OutFrame df])%list,
             Ok ())
        end
      else
        ((out ++ [OutStr "Failed to retrieve NS Stations data."])%list, Ok ())
  end.

Definition main (infer_string : bool) : list output * result unit :=
  main_with (ns_data_to_dataframe infer_string).

End Network.

End Api.

(** ** Vocabulary of the specification *)

Module Spec.
Import Py.

(** The columns of a flat station row, in the order of the dict display. *)
Definition fixed_columns : list string :=
  ["uicCode"; "evaCode"; "cdCode"; "code"; "stationType";
   "name_long"; "name_medium"; "name_short"; "name_festive"; "synonyms";
   "lat"; "lng"; "tracks"; "hasKnownFacilities";
   "availableForAccessibleTravel"; "hasTravelAssistance";
   "areTracksIndependentlyAccessible"; "isBorderStop"; "country"; "radius";
   "approachingRadius"; "distance"; "startDate"; "endDate";
   "nearbyMeLocationId_value"; "nearbyMeLocationId_type"].

(** The keys of a station record that hold a nested object. *)
Definition sub_objects : list string :=
  ["id"; "names"; "location"; "nearbyMeLocationId"].

Definition is_object (o : value) : bool :=
  match o with
  | VDict _ => true
  | _ => false
  end.

Definition sub_object_ok (d : gmap string value) (k : string) : bool :=
  match d !! k with
  | None => true
  | Some o => is_object o
  end.

(** A station record of the data model: a JSON object in which each of the
    sub-objects is either absent or itself an object. *)
Definition station_record (s : value) : bool :=
  match s with
  | VDict d => forallb (sub_object_ok d) sub_objects
  | _ => false
  end.


(** The default of a column: the empty list for the list-valued columns,
    null for the others. *)
Definition column_default (c : string) : value :=
  if bool_decide (c ∈ ["synonyms"; "tracks"]) then VList [] else VNone.

(** Where in a station record the value of each column is found. *)
Definition column_source : list (string * list string) :=
  [("uicCode", ["id"; "uicCode"]); ("evaCode", ["id"; "evaCode"]);
   ("cdCode", ["id"; "cdCode"]); ("code", ["id"; "code"]);
   ("stationType", ["stationType"]);
   ("name_long", ["names"; "long"]); ("name_medium", ["names"; "medium"]);
   ("name_short", ["names"; "short"]); ("name_festive", ["names"; "festive"]);
   ("synonyms", ["names"; "synonyms"]);
   ("lat", ["location"; "lat"]); ("lng", ["location"; "lng"]);
   ("tracks", ["tracks"]);
   ("hasKnownFacilities", ["hasKnownFacilities"]);
   ("availableForAccessibleTravel", ["availableForAccessibleTravel"]);
   ("hasTravelAssistance", ["hasTravelAssistance"]);
   ("areTracksIndependentlyAccessible", ["areTracksIndependentlyAccessible"]);
   ("isBorderStop", ["isBorderStop"]); ("country", ["country"]);
   ("radius", ["radius"]); ("approachingRadius", ["approachingRadius"]);
   ("distance", ["distance"]); ("startDate", ["startDate"]);
   ("endDate", ["endDate"]);
   ("nearbyMeLocationId_value", ["nearbyMeLocationId"; "value"]);
   ("nearbyMeLocationId_type", ["nearbyMeLocationId"; "type"])].

(** The value found by following a path of keys through nested objects. *)
Fixpoint at_path (o : value) (path : list string) : option value :=
  match path with
  | [] => Some o
  | k :: path' =>
      match o with
      | VDict d => d !! k ≫= λ o', at_path o' path'
      | _ => None
      end
  end.

(** The cells of the flat row of a station record: for each column the
    value at its path, or the default of the column. *)
Definition flat_values (s : value) : list value :=
  (λ cp : string * list string,
     default (column_default cp.1) (at_path s cp.2)) <$> column_source.

(** The frame of the flat rows of a list of stations: the table of their
    values, after the inference on each column. *)
Definition flat_frame (infer_string : bool) (l : list value) : pd.frame :=
  pd.Frame (if l is [] then [] else fixed_columns)
    (pd.infer_table infer_string 26 (flat_values <$> l)).

(** binary64 literals of the end-to-end scenario: the floats nearest to
    52.09 and to 5.11. *)
Definition float_52_09 : spec_float := S754_finite false 7331015768429036 (-47).
Definition float_5_11 : spec_float := S754_finite false 5753348523965809 (-50).

(** The flat row expected in the end-to-end scenario. *)
Definition utrecht_row : list value :=
  [VStr "8400058"; VNone; VNone; VNone; VNone;
   VStr "Utrecht Centraal"; VNone; VNone; VNone; VList [];
   VFloat float_52_09; VFloat float_5_11; VList []; VNone;
   VNone; VNone; VNone; VNone; VNone; VNone;
   VNone; VNone; VNone; VNone; VNone; VNone].

(** The decoded input of the end-to-end scenario. *)
Definition utrecht : value :=
  VDict {[ "payload" :=
    VList [ VDict (<[ "id" := VDict {[ "uicCode" := VStr "8400058" ]} ]>
                   (<[ "names" := VDict {[ "long" := VStr "Utrecht Centraal" ]} ]>
                    {[ "location" :=
                         VDict (<[ "lat" := VFloat float_52_09 ]>
                                {[ "lng" := VFloat float_5_11 ]}) ]})) ] ]}.

(** The value of the first sub-object key, in the order given, that is
    bound to something other than an object. *)
Fixpoint first_non_object (d : gmap string value) (ks : list string)
    : option value :=
  match ks with
  | [] => None
  | k :: ks' =>
      match d !! k with
      | Some v => if is_object v then first_non_object d ks' else Some v
      | None => first_non_object d ks'
      end
  end.

(** The request of the entry point, written out. *)
Definition main_request : Api.request :=
  Api.Request "https://gateway.apiportal.ns.nl/nsapp-stations/v3"
    [("Ocp-Apim-Subscription-Key", VStr "a9dc5c210d1d4b4392769ca647458691");
     ("Content-Type", VStr "application/json")]
    [("countryCodes", VStr "NL")].

(** Networks of the fetch scenarios: one that answers 401, one that times
    out, and one that answers 200 with a given decoded body. *)
Definition net_unauthorized (_ : Api.request) : result Api.response :=
  Ok (Api.Response 401 "Unauthorized"
        "https://gateway.apiportal.ns.nl/nsapp-stations/v3?countryCodes=NL"
        (Raise (Exn JSONDecodeError "Expecting value"))).

Definition net_timeout (_ : Api.request) : result Api.response :=
  Raise (Exn Timeout "Read timed out.").

Definition net_ok (body : value) (_ : Api.request) : result Api.response :=
  Ok (Api.Response 200 "OK"
        "https://gateway.apiportal.ns.nl/nsapp-stations/v3?countryCodes=NL"
        (Ok body)).

End Spec.

(** ** Properties *)

Import Py Api Spec.

(** *** Frames built from records with the same keys *)

Section frames.
Implicit Types (cols ks : list string) (r : record) (recs : list record).

Lemma add_key_known cols k : k ∈ cols → pd.add_key cols k = cols.
Proof. intros Hk. unfold pd.add_key. by rewrite bool_decide_eq_true_2. Qed.

Lemma add_key_fresh cols k : k ∉ cols → pd.add_key cols k = (cols ++ [k])%list.
Proof. intros Hk. unfold pd.add_key. by rewrite bool_decide_eq_false_2. Qed.

Lemma add_keys_known cols ks : ks ⊆ cols → foldl pd.add_key cols ks = cols.
Proof.
  induction ks as [|k ks IH]; intros Hsub; [done|].
  cbn [foldl]. rewrite add_key_known by set_solver. apply IH. set_solver.
Qed.

Lemma add_keys_fresh cols ks :
  NoDup (cols ++ ks)%list → foldl pd.add_key cols ks = (cols ++ ks)%list.
Proof.
  revert cols. induction ks as [|k ks IH]; intros cols Hnd.
  - by rewrite app_nil_r.
  - cbn [foldl]. apply NoDup_app in Hnd as (Hc & Hdisj & Hks).
    rewrite add_key_fresh by (intros Hin; apply (Hdisj _ Hin); left).
    rewrite IH; [by rewrite <- app_assoc|].
    rewrite <- app_assoc. apply NoDup_app. split_and!; [done| |done].
    intros x Hx. by apply Hdisj.
Qed.

Lemma key_union_same cols recs :
  NoDup cols → recs ≠ [] → Forall (λ r, r.*1 = cols) recs →
  pd.key_union recs = cols.
Proof.
  intros Hnd Hne Hall. unfold pd.key_union.
  destruct Hall as [|r recs Hr Hall]; [done|]. cbn [foldl].
  rewrite Hr, add_keys_fresh by done. cbn [app]. clear Hne.
  induction Hall as [|r' recs' Hr' _ IH]; [done|].
  cbn [foldl]. rewrite Hr', add_keys_known by done. apply IH.
Qed.

Lemma item_zip_skip c cols v vs k :
  String.eqb c k = false →
  item (zip (c :: cols) (v :: vs)) k = item (zip cols vs) k.
Proof. intros Hne. cbn [zip zip_with item]. by rewrite Hne. Qed.

Lemma align_zip cols (vs : list value) :
  NoDup cols → length vs = length cols → pd.align cols (zip cols vs) = vs.
Proof.
  revert vs. induction cols as [|c cols IH]; intros [|v vs] Hnd Hlen;
    try done.
  apply NoDup_cons in Hnd as [Hc Hnd]. unfold pd.align in *.
  cbn [fmap list_fmap]. f_equal.
  - cbn [zip zip_with item]. by rewrite String.eqb_refl.
  - etransitivity; [|apply (IH vs Hnd); simpl in Hlen; lia].
    apply list_fmap_ext. intros i k Hk. rewrite item_zip_skip; [done|].
    apply String.eqb_neq. intros ->. apply Hc. by eapply list_elem_of_lookup_2.
Qed.
End frames.

(** *** One station *)

Lemma bind_Some_id {A : Type} (o : option A) : o ≫= (λ x, Some x) = o.
Proof. by destruct o. Qed.

Lemma NoDup_fixed_columns : NoDup fixed_columns.
Proof. compute_done. Qed.

Lemma length_flat_values s : length (flat_values s) = length fixed_columns.
Proof. reflexivity. Qed.

(** On a station record the dict display never raises, and it is the flat
    row of the specification. *)
Lemma station_info_flat s :
  station_record s = true →
  station_info s = Ok (zip fixed_columns (flat_values s)).
Proof.
  destruct s as [| | | | | |d]; try discriminate.
  unfold station_record, sub_objects, sub_object_ok. cbn [forallb].
  intros H.
  unfold station_info, flat_values, column_source.
  cbn [fmap list_fmap at_path fst snd mbind option_bind get].
  rewrite !bind_Some_id.
  destruct (d !! "id") as [[]|]; try discriminate H;
  destruct (d !! "names") as [[]|]; try discriminate H;
  destruct (d !! "location") as [[]|]; try discriminate H;
  destruct (d !! "nearbyMeLocationId") as [[]|]; try discriminate H.
  all: cbn [mbind option_bind]; rewrite ?bind_Some_id.
  all: reflexivity.
Qed.

Lemma flat_row_keys s : (zip fixed_columns (flat_values s)).*1 = fixed_columns.
Proof. apply fst_zip. by rewrite length_flat_values. Qed.


(** *** Column inference *)

Section inference.
Implicit Types (col : list value) (table : list (list value)).
Variable infer_string : bool.









Lemma infer_table_row_length n table row :
  row ∈ pd.infer_table infer_string n table → length row = n.
Proof.
  unfold pd.infer_table. intros (i & -> & _)%list_elem_of_fmap.
  by rewrite !length_fmap, length_seq.
Qed.

End inference.




(** *** The loop and the frame *)

Lemma for_stations_flat l acc :
  forallb station_record l = true →
  for_stations l acc
  = Ok (acc ++ ((λ s, zip fixed_columns (flat_values s)) <$> l))%list.
Proof.
  revert acc. induction l as [|s l IH]; intros acc Hl.
  - cbn. by rewrite app_nil_r.
  - cbn [forallb] in Hl. apply andb_prop in Hl as [Hs Hl].
    cbn [for_stations]. rewrite (station_info_flat s Hs).
    cbn [mbind result_bind bind]. rewrite (IH _ Hl).
    by rewrite <- app_assoc.
Qed.

Lemma DataFrame_flat infer_string l :
  pd.DataFrame infer_string ((λ s, zip fixed_columns (flat_values s)) <$> l)
  = flat_frame infer_string l.
Proof.
  destruct l as [|s0 l0]; [reflexivity|].
  unfold pd.DataFrame, flat_frame.
  rewrite (key_union_same fixed_columns).
  - f_equal. f_equal. rewrite <- list_fmap_compose. apply list_fmap_ext.
    intros i s _. unfold compose.
    apply align_zip; [apply NoDup_fixed_columns|].
    apply length_flat_values.
  - apply NoDup_fixed_columns.
  - done.
  - apply Forall_fmap, Forall_forall. intros s _. apply flat_row_keys.
Qed.

(** The frame of a payload that is a list of station records. *)
Lemma ns_data_to_dataframe_records infer_string (m : gmap string value) l :
  m !! "payload" = Some (VList l) →
  forallb station_record l = true →
  ns_data_to_dataframe infer_string (VDict m) = Ok (flat_frame infer_string l).
Proof.
  intros Hp Hl. unfold ns_data_to_dataframe. cbn [get]. rewrite Hp.
  cbn [from_option id mbind result_bind bind iter].
  rewrite (for_stations_flat l [] Hl). cbn [app mbind result_bind bind].
  f_equal. apply DataFrame_flat.
Qed.









(** The literals are the quotients 5209/100 and 511/100 rounded to the
    nearest binary64 number. *)
Lemma float_literals_nearest :
  float_52_09 = SFdiv 53 1024 (S754_finite false 5209 0) (S754_finite false 100 0)
  ∧ float_5_11 = SFdiv 53 1024 (S754_finite false 511 0) (S754_finite false 100 0).
Proof. split; vm_compute; reflexivity. Qed.

Ltac elem_cases H :=
  repeat (apply elem_of_cons in H as [H|H]); [..|by apply elem_of_nil in H].




(** *** The flattener *)





(** C3, as the code has it: for an empty payload list, and for an input
    without the [payload] key, the result has no rows and no columns. *)
Theorem C3_empty_payload_empty_frame
    (infer_string : bool) (m : gmap string value) :
  m !! "payload" = None ∨ m !! "payload" = Some (VList []) →
  ns_data_to_dataframe infer_string (VDict m) = Ok (pd.Frame [] []).
Proof.
  intros Hp. unfold ns_data_to_dataframe. cbn [get].
  destruct Hp as [-> | ->]; reflexivity.
Qed.

Lemma C3_witness :
  ns_data_to_dataframe false (VDict ∅) = Ok (pd.Frame [] [])
  ∧ ns_data_to_dataframe true (VDict {[ "payload" := VList [] ]})
    = Ok (pd.Frame [] []).
Proof.
  split.
  - apply (C3_empty_payload_empty_frame false ∅). left. reflexivity.
  - apply (C3_empty_payload_empty_frame true {[ "payload" := VList [] ]}).
    right. vm_compute; reflexivity.
Defined.

(** C3 as stated fails: the frame of an empty payload does not carry the
    fixed columns. *)
Lemma C3_counterexample :
  ¬ ∃ infer_string df,
      ns_data_to_dataframe infer_string (VDict {[ "payload" := VList [] ]})
      = Ok df
      ∧ pd.rows df = []
      ∧ pd.columns df = fixed_columns.
Proof.
  intros (infer_string & df & Hdf & _ & Hcols).
  destruct infer_string; vm_compute in Hdf; injection Hdf as <-;
    discriminate Hcols.
Qed.





(** C7: the end-to-end scenario.  The input with Utrecht Centraal flattens
    to one row that holds the four given values, the empty list under
    [synonyms] and [tracks], and null everywhere else. *)
Theorem C7_utrecht_scenario (infer_string : bool) :
  ns_data_to_dataframe infer_string utrecht
  = Ok (pd.Frame fixed_columns [utrecht_row])
  ∧ pd.cell (pd.Frame fixed_columns [utrecht_row]) 0 "uicCode"
    = Some (VStr "8400058")
  ∧ pd.cell (pd.Frame fixed_columns [utrecht_row]) 0 "name_long"
    = Some (VStr "Utrecht Centraal")
  ∧ pd.cell (pd.Frame fixed_columns [utrecht_row]) 0 "lat"
    = Some (VFloat float_52_09)
  ∧ pd.cell (pd.Frame fixed_columns [utrecht_row]) 0 "lng"
    = Some (VFloat float_5_11)
  ∧ ∀ c, c ∈ fixed_columns →
      c ∉ ["uicCode"; "name_long"; "lat"; "lng"] →
      pd.cell (pd.Frame fixed_columns [utrecht_row]) 0 c
      = Some (column_default c).
Proof.
  split_and!; try (destruct infer_string; vm_compute; reflexivity).
  intros c Hc Hnot. unfold fixed_columns in Hc.
  elem_cases Hc; subst c; try (vm_compute; reflexivity);
    exfalso; apply Hnot; set_solver.
Qed.

Lemma C7_witness :
  pd.cell (pd.Frame fixed_columns [utrecht_row]) 0 "synonyms" = Some (VList [])
  ∧ pd.cell (pd.Frame fixed_columns [utrecht_row]) 0 "country" = Some VNone.
Proof.
  split.
  - apply (proj2 (proj2 (proj2 (proj2 (proj2 (C7_utrecht_scenario false)))))
                 "synonyms").
    + unfold fixed_columns.
      do 9 apply list_elem_of_further. apply list_elem_of_here.
    + compute_done.
  - apply (proj2 (proj2 (proj2 (proj2 (proj2 (C7_utrecht_scenario false)))))
                 "country").
    + unfold fixed_columns.
      do 18 apply list_elem_of_further. apply list_elem_of_here.
    + compute_done.
Defined.

(** C10: the frame depends on the input only through what is under
    [payload]; other top-level keys are not read. *)
Theorem C10_only_payload_matters
    (infer_string : bool) (m1 m2 : gmap string value) :
  m1 !! "payload" = m2 !! "payload" →
  ns_data_to_dataframe infer_string (VDict m1)
  = ns_data_to_dataframe infer_string (VDict m2).
Proof.
  intros Hp. unfold ns_data_to_dataframe. cbn [get]. by rewrite Hp.
Qed.

Lemma C10_witness :
  ns_data_to_dataframe false
    (VDict (<[ "links" := VDict ∅ ]>
            {[ "payload" := VList [VDict {[ "country" := VStr "NL" ]}] ]}))
  = ns_data_to_dataframe false
      (VDict (<[ "meta" := VStr "x" ]>
              {[ "payload" := VList [VDict {[ "country" := VStr "NL" ]}] ]})).
Proof.
  apply C10_only_payload_matters. vm_compute; reflexivity.
Defined.

(** *** Malformed stations *)

Lemma station_info_not_record s :
  station_record s = false →
  ∃ o, is_object o = false ∧ station_info s = Raise (no_attribute o "get").
Proof.
  destruct s as [| | | | | |d];
    try (intros _; eexists; split; [|reflexivity]; reflexivity).
  unfold station_record, sub_objects, sub_object_ok. cbn [forallb].
  unfold station_info. cbn [get].
  destruct (d !! "id") as [[]|];
    try (intros _; eexists; split; [|reflexivity]; reflexivity);
  destruct (d !! "names") as [[]|];
    try (intros _; eexists; split; [|reflexivity]; reflexivity);
  destruct (d !! "location") as [[]|];
    try (intros _; eexists; split; [|reflexivity]; reflexivity);
  destruct (d !! "nearbyMeLocationId") as [[]|];
    try (intros _; eexists; split; [|reflexivity]; reflexivity);
  intros H; discriminate H.
Qed.

Lemma for_stations_raises l acc s :
  s ∈ l → station_record s = false →
  ∃ o, is_object o = false ∧ for_stations l acc = Raise (no_attribute o "get").
Proof.
  revert acc. induction l as [|s' l IH]; intros acc Hin Hs.
  - by apply elem_of_nil in Hin.
  - cbn [for_stations]. destruct (station_record s') eqn:Hs'.
    + rewrite (station_info_flat s' Hs'). cbn [mbind result_bind bind].
      apply IH; [|done]. apply elem_of_cons in Hin as [->|Hin]; [congruence|done].
    + destruct (station_info_not_record s' Hs') as (o & Ho & ->).
      by exists o.
Qed.

Lemma sub_object_not_ok (d : gmap string value) k v :
  k ∈ sub_objects → d !! k = Some v → is_object v = false →
  station_record (VDict d) = false.
Proof.
  intros Hk Hv Hobj. unfold station_record, sub_objects in *.
  apply not_true_is_false. rewrite forallb_forall. intros Hall.
  specialize (Hall k). unfold sub_object_ok in Hall. rewrite Hv in Hall.
  rewrite Hall in Hobj; [done|]. by apply list_elem_of_In.
Qed.

(** C8: when a station of the payload binds one of the sub-object keys to
    null, or to anything that is not an object, the flattener raises an
    [AttributeError]: the empty-object default of [get] is used only for an
    absent key. *)
Theorem C8_non_object_sub_object_raises (infer_string : bool)
    (m : gmap string value) (l : list value)
    (d : gmap string value) (k : string) (v : value) :
  m !! "payload" = Some (VList l) →
  VDict d ∈ l →
  k ∈ sub_objects →
  d !! k = Some v →
  is_object v = false →
  ∃ o, is_object o = false
    ∧ ns_data_to_dataframe infer_string (VDict m)
      = Raise (Exn AttributeError
                 ("'" +:+ type_name o +:+ "' object has no attribute 'get'")).
Proof.
  intros Hp Hin Hk Hv Hobj.
  pose proof (sub_object_not_ok d k v Hk Hv Hobj) as Hs.
  destruct (for_stations_raises l [] (VDict d) Hin Hs) as (o & Ho & Hraise).
  exists o. split; [exact Ho|].
  unfold ns_data_to_dataframe. cbn [get]. rewrite Hp.
  cbn [from_option id mbind result_bind bind iter].
  rewrite Hraise. reflexivity.
Qed.

Lemma C8_witness :
  ∃ o, is_object o = false
    ∧ ns_data_to_dataframe false
        (VDict {[ "payload" := VList [VDict {[ "location" := VNone ]}] ]})
      = Raise (Exn AttributeError
                 ("'" +:+ type_name o +:+ "' object has no attribute 'get'")).
Proof.
  apply (C8_non_object_sub_object_raises false
           {[ "payload" := VList [VDict {[ "location" := VNone ]}] ]}
           [VDict {[ "location" := VNone ]}]
           {[ "location" := VNone ]} "location" VNone).
  - vm_compute; reflexivity.
  - apply list_elem_of_here.
  - unfold sub_objects.
    do 2 apply list_elem_of_further. apply list_elem_of_here.
  - vm_compute; reflexivity.
  - reflexivity.
Defined.

(** *** The fetcher *)

(** The fetcher consults the network at one request only. *)
Lemma get_ns_stations_one_request
    (net1 net2 : request → result response)
    (key : string) (q flag cc lim : value) :
  net1 (stations_request key q flag cc lim)
  = net2 (stations_request key q flag cc lim) →
  get_ns_stations net1 key q flag cc lim
  = get_ns_stations net2 key q flag cc lim.
Proof. intros Heq. unfold get_ns_stations. by rewrite Heq. Qed.

(** C4: the query parameters of the request are exactly the filters whose
    values are truthy, each under its own name and in the order tested; the
    others are left out.  The flag, when sent, is the string "true" and
    never a boolean. *)
Theorem C4_query_parameters (key : string) (q flag cc lim : value) :
  let params := req_params (stations_request key q flag cc lim) in
  params
  = ((if truthy q then [("q", q)] else [])
     ++ (if truthy flag
         then [("includeNonPlannableStations", VStr "true")] else [])
     ++ (if truthy cc then [("countryCodes", cc)] else [])
     ++ (if truthy lim then [("limit", lim)] else []))%list
  ∧ item params "q" = (if truthy q then Some q else None)
  ∧ item params "includeNonPlannableStations"
    = (if truthy flag then Some (VStr "true") else None)
  ∧ item params "countryCodes" = (if truthy cc then Some cc else None)
  ∧ item params "limit" = (if truthy lim then Some lim else None)
  ∧ from_option is_bool false (item params "includeNonPlannableStations")
    = false.
Proof.
  cbn zeta. unfold stations_request, build_params. cbn [req_params].
  destruct (truthy q), (truthy flag), (truthy cc), (truthy lim);
    split_and!; reflexivity.
Qed.

Section fetch_outcomes.
Variable requests_get : request → result response.
Variables (key : string) (q flag cc lim : value).

Lemma raise_for_status_error resp :
  (400 ≤ status_code resp < 600)%Z →
  ∃ msg, raise_for_status resp = Raise (Exn HTTPError msg).
Proof.
  intros Hst. unfold raise_for_status.
  destruct (bool_decide (400 ≤ status_code resp < 500)%Z) eqn:H4.
  - by eexists.
  - apply bool_decide_eq_false in H4.
    rewrite bool_decide_eq_true_2 by lia. by eexists.
Qed.

Lemma raise_for_status_success resp :
  (200 ≤ status_code resp < 300)%Z → raise_for_status resp = Ok ().
Proof.
  intros Hst. unfold raise_for_status.
  by rewrite !bool_decide_eq_false_2 by lia.
Qed.

Lemma get_ns_stations_http_error resp msg :
  requests_get (stations_request key q flag cc lim) = Ok resp →
  raise_for_status resp = Raise (Exn HTTPError msg) →
  get_ns_stations requests_get key q flag cc lim
  = ([OutStr ("HTTP error occurred: " +:+ msg)], Ok VNone).
Proof.
  intros Hget Hraise. unfold get_ns_stations. rewrite Hget.
  cbn [mbind result_bind bind]. by rewrite Hraise.
Qed.

Lemma get_ns_stations_request_error err :
  requests_get (stations_request key q flag cc lim) = Raise err →
  is_RequestException (exn_cls err) = true →
  is_HTTPError (exn_cls err) = false →
  get_ns_stations requests_get key q flag cc lim
  = ([OutStr ("Request error occurred: " +:+ exn_msg err)], Ok VNone).
Proof.
  intros Hget Hreq Hhttp. unfold get_ns_stations. rewrite Hget.
  cbn [mbind result_bind bind]. by rewrite Hhttp, Hreq.
Qed.

Lemma get_ns_stations_success resp body :
  requests_get (stations_request key q flag cc lim) = Ok resp →
  (200 ≤ status_code resp < 300)%Z →
  json resp = Ok body →
  get_ns_stations requests_get key q flag cc lim = ([], Ok body).
Proof.
  intros Hget Hst Hbody. unfold get_ns_stations. rewrite Hget.
  cbn [mbind result_bind bind].
  rewrite (raise_for_status_success resp Hst).
  cbn [bind]. by rewrite Hbody.
Qed.
End fetch_outcomes.

(** C5: an error status ends in the line "HTTP error occurred: ..." and the
    return value [None]; a failure raised by the transport ends in the line
    "Request error occurred: ..." and [None]; in both cases nothing is
    raised.  A 2xx response whose body decodes is answered with that body
    and prints nothing. *)
Theorem C5_fetch_outcomes
    (requests_get : request → result response)
    (key : string) (q flag cc lim : value) :
  let sent := stations_request key q flag cc lim in
  (∀ resp, requests_get sent = Ok resp →
     (400 ≤ status_code resp < 600)%Z →
     ∃ msg, raise_for_status resp = Raise (Exn HTTPError msg)
       ∧ get_ns_stations requests_get key q flag cc lim
         = ([OutStr ("HTTP error occurred: " +:+ msg)], Ok VNone))
  ∧ (∀ err, requests_get sent = Raise err →
       is_RequestException (exn_cls err) = true →
       is_HTTPError (exn_cls err) = false →
       get_ns_stations requests_get key q flag cc lim
       = ([OutStr ("Request error occurred: " +:+ exn_msg err)], Ok VNone))
  ∧ (∀ resp body, requests_get sent = Ok resp →
       (200 ≤ status_code resp < 300)%Z →
       json resp = Ok body →
       get_ns_stations requests_get key q flag cc lim = ([], Ok body)).
Proof.
  cbn zeta. split_and!.
  - intros resp Hget Hst.
    destruct (raise_for_status_error resp Hst) as [msg Hmsg].
    exists msg. split; [exact Hmsg|].
    by apply (get_ns_stations_http_error _ _ _ _ _ _ resp).
  - apply get_ns_stations_request_error.
  - apply get_ns_stations_success.
Qed.

Lemma C5_witness :
  (∃ msg,
     get_ns_stations net_unauthorized api_key VNone (VBool false) (VStr "NL")
       VNone
     = ([OutStr ("HTTP error occurred: " +:+ msg)], Ok VNone))
  ∧ get_ns_stations net_timeout api_key VNone (VBool false) (VStr "NL") VNone
    = ([OutStr "Request error occurred: Read timed out."], Ok VNone)
  ∧ get_ns_stations (net_ok utrecht) api_key VNone (VBool false) (VStr "NL")
      VNone
    = ([], Ok utrecht).
Proof.
  split_and!.
  - destruct (proj1 (C5_fetch_outcomes net_unauthorized api_key
                       VNone (VBool false) (VStr "NL") VNone)
                    (Response 401 "Unauthorized"
                       "https://gateway.apiportal.ns.nl/nsapp-stations/v3?countryCodes=NL"
                       (Raise (Exn JSONDecodeError "Expecting value"))))
      as (msg & _ & Hout).
    + reflexivity.
    + cbn [status_code]. lia.
    + exists msg. exact Hout.
  - apply (proj1 (proj2 (C5_fetch_outcomes net_timeout api_key
                           VNone (VBool false) (VStr "NL") VNone))
                 (Exn Timeout "Read timed out."));
      reflexivity.
  - apply (proj2 (proj2 (C5_fetch_outcomes (net_ok utrecht) api_key
                           VNone (VBool false) (VStr "NL") VNone))
                 (Response 200 "OK"
                    "https://gateway.apiportal.ns.nl/nsapp-stations/v3?countryCodes=NL"
                    (Ok utrecht))).
    + reflexivity.
    + cbn [status_code]. lia.
    + reflexivity.
Defined.

(** *** The entry point *)

(** C9: the entry point tests the fetch result for truth.  Whenever the
    fetcher returns a falsy value the fixed failure line is printed after
    whatever the fetcher printed, nothing is raised, and the flattener has
    no part in the outcome; in particular a 2xx response whose body is the
    empty object is reported as a failure. *)
Theorem C9_falsy_result_reported_as_failure (infer_string : bool)
    (requests_get : request → result response)
    (flatten : value → result pd.frame) :
  (∀ out data,
     get_ns_stations requests_get api_key VNone (VBool false) (VStr "NL") VNone
     = (out, Ok data) →
     truthy data = false →
     main_with requests_get flatten
     = ((out ++ [OutStr "Failed to retrieve NS Stations data."])%list, Ok ()))
  ∧ (∀ resp,
       requests_get
         (stations_request api_key VNone (VBool false) (VStr "NL") VNone)
       = Ok resp →
       (200 ≤ status_code resp < 300)%Z →
       json resp = Ok (VDict ∅) →
       main_with requests_get flatten
       = ([OutStr "Failed to retrieve NS Stations data."], Ok ())
       ∧ main requests_get infer_string
         = ([OutStr "Failed to retrieve NS Stations data."], Ok ())).
Proof.
  assert (∀ f out data,
            get_ns_stations requests_get api_key VNone (VBool false)
              (VStr "NL") VNone = (out, Ok data) →
            truthy data = false →
            main_with requests_get f
            = ((out ++ [OutStr "Failed to retrieve NS Stations data."])%list,
               Ok ())) as Hfalsy.
  { intros f out data Hget Hfalse. unfold main_with.
    rewrite Hget. by rewrite Hfalse. }
  split; [apply Hfalsy|].
  intros resp Hget Hst Hbody.
  pose proof (get_ns_stations_success requests_get api_key
                VNone (VBool false) (VStr "NL") VNone
                resp (VDict ∅) Hget Hst Hbody) as Hfetch.
  split; [|unfold main]; apply (Hfalsy _ [] (VDict ∅) Hfetch); reflexivity.
Qed.

Lemma C9_witness :
  main_with (net_ok (VDict ∅)) (λ _, Ok (pd.Frame [] []))
  = ([OutStr "Failed to retrieve NS Stations data."], Ok ())
  ∧ main net_unauthorized false
    = ([OutStr
          ("HTTP error occurred: 401 Client Error: Unauthorized for url: "
           +:+ "https://gateway.apiportal.ns.nl/nsapp-stations/v3?countryCodes=NL");
        OutStr "Failed to retrieve NS Stations data."],
       Ok ()).
Proof.
  split.
  - apply (proj2 (C9_falsy_result_reported_as_failure false
                    (net_ok (VDict ∅)) (λ _, Ok (pd.Frame [] [])))
                 (Response 200 "OK"
                    "https://gateway.apiportal.ns.nl/nsapp-stations/v3?countryCodes=NL"
                    (Ok (VDict ∅)))).
    + reflexivity.
    + cbn [status_code]. lia.
    + reflexivity.
  - apply (proj1 (C9_falsy_result_reported_as_failure false
                    net_unauthorized (ns_data_to_dataframe false))
                 [OutStr
                    ("HTTP error occurred: 401 Client Error: Unauthorized for url: "
                     +:+ "https://gateway.apiportal.ns.nl/nsapp-stations/v3?countryCodes=NL")]
                 VNone).
    + vm_compute; reflexivity.
    + reflexivity.
Defined.

(** ** Further properties of the code *)

(** *** Success and failure of the flattener, in full *)

Lemma station_info_Ok_inv s info :
  station_info s = Ok info →
  station_record s = true ∧ info = zip fixed_columns (flat_values s).
Proof.
  intros Hinfo. destruct (station_record s) eqn:Hs.
  - rewrite (station_info_flat s Hs) in Hinfo. by injection Hinfo as <-.
  - destruct (station_info_not_record s Hs) as (o & _ & Hraise).
    rewrite Hraise in Hinfo. discriminate Hinfo.
Qed.

Lemma for_stations_Ok_inv l acc recs :
  for_stations l acc = Ok recs → forallb station_record l = true.
Proof.
  revert acc. induction l as [|s l IH]; intros acc Hrecs; [done|].
  cbn [for_stations] in Hrecs. cbn [forallb].
  destruct (station_info s) as [info|e] eqn:Hinfo; [|discriminate Hrecs].
  apply station_info_Ok_inv in Hinfo as [-> _].
  cbn [mbind result_bind bind] in Hrecs. by rewrite (IH _ Hrecs).
Qed.

Lemma for_stations_first_bad good bad rest acc e :
  forallb station_record good = true →
  station_info bad = Raise e →
  for_stations (good ++ bad :: rest) acc = Raise e.
Proof.
  revert acc. induction good as [|s good IH]; intros acc Hgood Hbad.
  - cbn [app for_stations]. by rewrite Hbad.
  - cbn [forallb] in Hgood. apply andb_prop in Hgood as [Hs Hgood].
    cbn [app for_stations]. rewrite (station_info_flat s Hs).
    cbn [mbind result_bind bind]. by apply IH.
Qed.

Lemma ns_data_to_dataframe_items (infer_string : bool)
    (m : gmap string value) items :
  iter (default (VList []) (m !! "payload")) = Ok items →
  ns_data_to_dataframe infer_string (VDict m)
  = recs ← for_stations items []; Ok (pd.DataFrame infer_string recs).
Proof.
  intros Hiter. unfold ns_data_to_dataframe. cbn [get].
  cbn [mbind result_bind bind]. by rewrite Hiter.
Qed.

Lemma frame_of_items (infer_string : bool) items :
  forallb station_record items = true →
  (recs ← for_stations items []; Ok (pd.DataFrame infer_string recs))
  = Ok (flat_frame infer_string items).
Proof.
  intros Hall. rewrite (for_stations_flat items [] Hall).
  cbn [app mbind result_bind bind]. f_equal. apply DataFrame_flat.
Qed.

Lemma ns_data_to_dataframe_Ok_inv (infer_string : bool) data df :
  ns_data_to_dataframe infer_string data = Ok df →
  ∃ m items,
    data = VDict m
    ∧ iter (default (VList []) (m !! "payload")) = Ok items
    ∧ forallb station_record items = true
    ∧ df = flat_frame infer_string items.
Proof.
  intros Hdf. destruct data as [| | | | | |m]; try discriminate Hdf.
  destruct (iter (default (VList []) (m !! "payload"))) as [items|e] eqn:Hit.
  - rewrite (ns_data_to_dataframe_items infer_string m items Hit) in Hdf.
    destruct (for_stations items []) as [recs|e] eqn:Hrecs;
      [|discriminate Hdf].
    pose proof (for_stations_Ok_inv _ _ _ Hrecs) as Hall.
    pose proof (frame_of_items infer_string items Hall) as Hframe.
    rewrite Hrecs in Hframe. rewrite Hframe in Hdf. injection Hdf as <-.
    by exists m, items.
  - unfold ns_data_to_dataframe in Hdf. cbn [get] in Hdf.
    cbn [mbind result_bind bind] in Hdf. rewrite Hit in Hdf.
    discriminate Hdf.
Qed.





(** X3: what a station that is not a station record raises.  A station that
    is not an object raises on its own [get]; an object raises on the first
    sub-object, in the order id, names, location, nearbyMeLocationId, that
    is bound to a non-object, and the message names the type of that
    value. *)
Theorem X3_station_error (s : value) :
  (is_object s = false → station_info s = Raise (no_attribute s "get"))
  ∧ (∀ d v, s = VDict d → first_non_object d sub_objects = Some v →
       is_object v = false
       ∧ station_info s = Raise (no_attribute v "get")).
Proof.
  split.
  - by destruct s.
  - intros d v -> Hv. unfold sub_objects in Hv. cbn [first_non_object] in Hv.
    unfold station_info. cbn [get].
    destruct (d !! "id") as [[]|];
      try (injection Hv as <-; split; reflexivity);
    destruct (d !! "names") as [[]|];
      try (injection Hv as <-; split; reflexivity);
    destruct (d !! "location") as [[]|];
      try (injection Hv as <-; split; reflexivity);
    destruct (d !! "nearbyMeLocationId") as [[]|];
      try (injection Hv as <-; split; reflexivity);
    discriminate Hv.
Qed.

Lemma X3_witness :
  station_info (VStr "Utrecht") = Raise (no_attribute (VStr "Utrecht") "get")
  ∧ station_info
      (VDict (<[ "names" := VList [] ]> {[ "location" := VNone ]}))
    = Raise (no_attribute (VList []) "get").
Proof.
  split.
  - apply (proj1 (X3_station_error (VStr "Utrecht"))). reflexivity.
  - apply (proj2 (X3_station_error
                    (VDict (<[ "names" := VList [] ]>
                            {[ "location" := VNone ]})))
                 (<[ "names" := VList [] ]> {[ "location" := VNone ]})
                 (VList [])).
    + reflexivity.
    + vm_compute; reflexivity.
Defined.

(** X4: the flattener stops at the first station that is not a station
    record: its exception, an [AttributeError], is the outcome, whatever
    follows it in the payload. *)
Theorem X4_first_malformed_station_decides (infer_string : bool)
    (m : gmap string value) (good : list value) (bad : value)
    (rest : list value) :
  m !! "payload" = Some (VList (good ++ bad :: rest)) →
  forallb station_record good = true →
  station_record bad = false →
  ∃ e, station_info bad = Raise e
    ∧ exn_cls e = AttributeError
    ∧ ns_data_to_dataframe infer_string (VDict m) = Raise e.
Proof.
  intros Hp Hgood Hbad.
  destruct (station_info_not_record bad Hbad) as (o & _ & Hraise).
  exists (no_attribute o "get"). split_and!; [done|done|].
  rewrite (ns_data_to_dataframe_items infer_string m (good ++ bad :: rest)).
  - by rewrite (for_stations_first_bad good bad rest [] _ Hgood Hraise).
  - by rewrite Hp.
Qed.

Lemma X4_witness :
  ∃ e, station_info (VInt 7) = Raise e
    ∧ exn_cls e = AttributeError
    ∧ ns_data_to_dataframe false
        (VDict {[ "payload" :=
           VList [VDict ∅; VInt 7; VDict {[ "id" := VNone ]}] ]})
      = Raise e.
Proof.
  apply (X4_first_malformed_station_decides false
           {[ "payload" :=
              VList [VDict ∅; VInt 7; VDict {[ "id" := VNone ]}] ]}
           [VDict ∅] (VInt 7) [VDict {[ "id" := VNone ]}]).
  - vm_compute; reflexivity.
  - reflexivity.
  - reflexivity.
Defined.

(** *** A payload that is not a list *)

Lemma station_info_str k :
  station_info (VStr k)
  = Raise (Exn AttributeError "'str' object has no attribute 'get'").
Proof. reflexivity. Qed.

Lemma chars_nil s : chars s = [] → s = "".
Proof. by destruct s. Qed.

(** X5: what is under [payload] when it is not a list.  Null, a boolean or
    a number is not iterable and raises [TypeError]; an empty string or
    empty object is an empty payload; a string or object that is not empty
    is iterated, over its characters or its keys, and the first of them
    raises the [AttributeError] of a [str]. *)
Theorem X5_payload_not_a_list (infer_string : bool) (m : gmap string value) (p : value) :
  m !! "payload" = Some p →
  (p = VNone ∨ (∃ b, p = VBool b) ∨ (∃ z, p = VInt z) ∨ (∃ f, p = VFloat f) →
     ns_data_to_dataframe infer_string (VDict m)
     = Raise (Exn TypeError
                ("'" +:+ type_name p +:+ "' object is not iterable")))
  ∧ (p = VStr "" ∨ p = VDict ∅ →
       ns_data_to_dataframe infer_string (VDict m) = Ok (pd.Frame [] []))
  ∧ ((∃ s, p = VStr s ∧ s ≠ "") ∨ (∃ d, p = VDict d ∧ d ≠ ∅) →
       ns_data_to_dataframe infer_string (VDict m)
       = Raise (Exn AttributeError "'str' object has no attribute 'get'")).
Proof.
  intros Hp. unfold ns_data_to_dataframe. cbn [get]. rewrite Hp.
  cbn [from_option id mbind result_bind bind]. split_and!.
  - intros [->|[[b ->]|[[z ->]|[f ->]]]]; reflexivity.
  - intros [->| ->]; [reflexivity|].
    cbn [iter]. rewrite map_to_list_empty. reflexivity.
  - intros [(s & -> & Hs)|(d & -> & Hd)]; cbn [iter].
    + destruct s as [|a s']; [done|]. reflexivity.
    + destruct (map_to_list d) as [|[k v] kvs] eqn:Hkvs.
      { by apply map_to_list_empty_iff in Hkvs. }
      reflexivity.
Qed.

Lemma X5_witness :
  ns_data_to_dataframe false (VDict {[ "payload" := VNone ]})
  = Raise (Exn TypeError "'NoneType' object is not iterable")
  ∧ ns_data_to_dataframe false (VDict {[ "payload" := VDict ∅ ]})
    = Ok (pd.Frame [] [])
  ∧ ns_data_to_dataframe false
      (VDict {[ "payload" := VDict {[ "stations" := VList [] ]} ]})
    = Raise (Exn AttributeError "'str' object has no attribute 'get'").
Proof.
  split_and!.
  - destruct (X5_payload_not_a_list false {[ "payload" := VNone ]} VNone)
      as (Hscalar & _ & _); [vm_compute; reflexivity|].
    apply Hscalar. left. reflexivity.
  - destruct (X5_payload_not_a_list false {[ "payload" := VDict ∅ ]} (VDict ∅))
      as (_ & Hempty & _); [vm_compute; reflexivity|].
    apply Hempty. right. reflexivity.
  - destruct (X5_payload_not_a_list false
                {[ "payload" := VDict {[ "stations" := VList [] ]} ]}
                (VDict {[ "stations" := VList [] ]}))
      as (_ & _ & Hkeys); [vm_compute; reflexivity|].
    apply Hkeys. right. exists {[ "stations" := VList [] ]}.
    split; [reflexivity|]. apply insert_non_empty.
Defined.

(** *** What the flattener does not look at *)

(** X6: the frame depends on the stations only through the values at the
    26 column paths: two payloads of station records that agree there,
    station by station, give the same frame, whatever other keys the
    stations or their sub-objects carry. *)
Theorem X6_only_column_paths_matter (infer_string : bool)
    (m1 m2 : gmap string value) (l1 l2 : list value) :
  m1 !! "payload" = Some (VList l1) →
  m2 !! "payload" = Some (VList l2) →
  forallb station_record l1 = true →
  forallb station_record l2 = true →
  Forall2 (λ s1 s2, ∀ c path, (c, path) ∈ column_source →
                      at_path s1 path = at_path s2 path) l1 l2 →
  ns_data_to_dataframe infer_string (VDict m1) = ns_data_to_dataframe infer_string (VDict m2).
Proof.
  intros Hp1 Hp2 Hl1 Hl2 Hagree.
  rewrite (ns_data_to_dataframe_records infer_string m1 l1 Hp1 Hl1).
  rewrite (ns_data_to_dataframe_records infer_string m2 l2 Hp2 Hl2).
  clear Hp1 Hp2 Hl1 Hl2. f_equal. unfold flat_frame.
  assert (flat_values <$> l1 = flat_values <$> l2) as ->.
  { induction Hagree as [|s1 s2 l1 l2 Hs _ IH]; [done|].
    cbn [fmap list_fmap]. f_equal; [|exact IH].
    unfold flat_values. apply list_fmap_ext.
    intros j [c path] Hj. cbn [fst snd].
    rewrite (Hs c path); [done|]. by eapply list_elem_of_lookup_2. }
  by destruct Hagree.
Qed.

Lemma X6_witness :
  ns_data_to_dataframe false
    (VDict {[ "payload" :=
       VList [VDict (<[ "id" := VDict (<[ "uicCode" := VStr "8400058" ]>
                                        {[ "internal" := VInt 1 ]}) ]>
                     {[ "sales" := VBool true ]})] ]})
  = ns_data_to_dataframe false
      (VDict {[ "payload" :=
         VList [VDict {[ "id" := VDict {[ "uicCode" := VStr "8400058" ]} ]}] ]}).
Proof.
  apply (X6_only_column_paths_matter false _ _
           [VDict (<[ "id" := VDict (<[ "uicCode" := VStr "8400058" ]>
                                      {[ "internal" := VInt 1 ]}) ]>
                   {[ "sales" := VBool true ]})]
           [VDict {[ "id" := VDict {[ "uicCode" := VStr "8400058" ]} ]}]).
  - vm_compute; reflexivity.
  - vm_compute; reflexivity.
  - vm_compute; reflexivity.
  - vm_compute; reflexivity.
  - constructor; [|constructor].
    intros c path Hc. unfold column_source in Hc.
    elem_cases Hc; injection Hc as -> ->; vm_compute; reflexivity.
Defined.

(** X8: whatever the input, a frame that is returned is rectangular: either
    it has no rows and no columns, or its columns are the 26 fixed ones and
    every row has 26 cells. *)
Theorem X8_returned_frame_shape (infer_string : bool) (data : value) (df : pd.frame) :
  ns_data_to_dataframe infer_string data = Ok df →
  (pd.columns df = [] ∧ pd.rows df = [])
  ∨ (pd.columns df = fixed_columns
     ∧ pd.rows df ≠ []
     ∧ Forall (λ row, length row = 26) (pd.rows df)).
Proof.
  intros Hdf.
  destruct (ns_data_to_dataframe_Ok_inv infer_string _ _ Hdf)
    as (m & items & _ & _ & _ & ->).
  destruct items as [|s items]; [by left|]. right. cbn [pd.columns pd.rows].
  split_and!; [done|done|].
  apply Forall_fmap, Forall_forall. intros s' _. reflexivity.
Qed.

Lemma X8_witness :
  (pd.columns (pd.Frame fixed_columns [utrecht_row]) = []
   ∧ pd.rows (pd.Frame fixed_columns [utrecht_row]) = [])
  ∨ (pd.columns (pd.Frame fixed_columns [utrecht_row]) = fixed_columns
     ∧ pd.rows (pd.Frame fixed_columns [utrecht_row]) ≠ []
     ∧ Forall (λ row, length row = 26)
         (pd.rows (pd.Frame fixed_columns [utrecht_row]))).
Proof.
  apply (X8_returned_frame_shape false utrecht). vm_compute; reflexivity.
Defined.

(** *** The fetcher, for every network *)

Lemma get_ns_stations_invariants
    (requests_get : request → result response)
    (key : string) (q flag cc lim : value) :
  let outcome := get_ns_stations requests_get key q flag cc lim in
  (length outcome.1 ≤ 1)%nat
  ∧ (outcome.1 ≠ [] → outcome.2 = Ok VNone)
  ∧ (∀ e, outcome.2 = Raise e → is_RequestException (exn_cls e) = false).
Proof.
  cbn zeta. unfold get_ns_stations.
  destruct (_ ≫= _) as [body|err].
  - cbn [fst snd length]. split_and!; [lia|done|discriminate].
  - destruct (is_HTTPError (exn_cls err)) eqn:Hhttp;
      [|destruct (is_RequestException (exn_cls err)) eqn:Hreq];
      cbn [fst snd length]; split_and!; try lia; try done; try discriminate.
    intros e [= <-]. exact Hreq.
Qed.

(** X9: for every network and every choice of filters the fetcher prints at
    most one line, returns [None] whenever it printed, and lets no
    exception of the requests package escape. *)
Theorem X9_fetcher_invariants
    (requests_get : request → result response)
    (key : string) (q flag cc lim : value) :
  let outcome := get_ns_stations requests_get key q flag cc lim in
  (length outcome.1 ≤ 1)%nat
  ∧ (outcome.1 ≠ [] → outcome.2 = Ok VNone)
  ∧ (∀ e, outcome.2 = Raise e → is_RequestException (exn_cls e) = false).
Proof. apply get_ns_stations_invariants. Qed.

Lemma X9_witness :
  (get_ns_stations net_unauthorized api_key VNone (VBool false) (VStr "NL")
     VNone).2
  = Ok VNone.
Proof.
  apply (proj1 (proj2 (X9_fetcher_invariants net_unauthorized api_key
                         VNone (VBool false) (VStr "NL") VNone))).
  vm_compute. discriminate.
Defined.

(** X10: an exception that is not of the requests package is not handled:
    raised by [requests.get], or by decoding the body of a response whose
    status is no error, it escapes the fetcher, and nothing is printed. *)
Theorem X10_other_exceptions_escape
    (requests_get : request → result response)
    (key : string) (q flag cc lim : value) (e : exn) :
  is_RequestException (exn_cls e) = false →
  requests_get (stations_request key q flag cc lim) = Raise e
  ∨ (∃ resp, requests_get (stations_request key q flag cc lim) = Ok resp
       ∧ ¬ (400 ≤ status_code resp < 600)%Z
       ∧ json resp = Raise e) →
  get_ns_stations requests_get key q flag cc lim = ([], Raise e).
Proof.
  intros Hreq Hnet.
  assert (is_HTTPError (exn_cls e) = false) as Hhttp.
  { by destruct (exn_cls e). }
  unfold get_ns_stations.
  destruct Hnet as [-> | (resp & -> & Hst & Hjson)];
    cbn [mbind result_bind bind].
  - by rewrite Hhttp, Hreq.
  - unfold raise_for_status. rewrite !bool_decide_eq_false_2 by lia.
    rewrite Hjson. cbn [mbind result_bind bind]. by rewrite Hhttp, Hreq.
Qed.

Lemma X10_witness :
  get_ns_stations (λ _, Raise (Exn ValueError "Invalid header value"))
    api_key VNone (VBool false) (VStr "NL") VNone
  = ([], Raise (Exn ValueError "Invalid header value")).
Proof.
  apply (X10_other_exceptions_escape
           (λ _, Raise (Exn ValueError "Invalid header value"))
           api_key VNone (VBool false) (VStr "NL") VNone
           (Exn ValueError "Invalid header value")).
  - reflexivity.
  - left. reflexivity.
Defined.

(** X11: only the statuses 400 to 599 count as errors.  With any other
    status the body is decoded: the fetcher returns it when it decodes, and
    when decoding raises an exception of the requests package it prints the
    request-error line and returns [None]. *)
Theorem X11_status_outside_error_range
    (requests_get : request → result response)
    (key : string) (q flag cc lim : value) (resp : response) :
  requests_get (stations_request key q flag cc lim) = Ok resp →
  ¬ (400 ≤ status_code resp < 600)%Z →
  (∀ body, json resp = Ok body →
     get_ns_stations requests_get key q flag cc lim = ([], Ok body))
  ∧ (∀ e, json resp = Raise e →
       is_RequestException (exn_cls e) = true →
       is_HTTPError (exn_cls e) = false →
       get_ns_stations requests_get key q flag cc lim
       = ([OutStr ("Request error occurred: " +:+ exn_msg e)], Ok VNone)).
Proof.
  intros Hget Hst. unfold get_ns_stations. rewrite Hget.
  cbn [mbind result_bind bind]. unfold raise_for_status.
  rewrite !bool_decide_eq_false_2 by lia.
  split.
  - by intros body ->.
  - intros e -> Hreq Hhttp. cbn [mbind result_bind bind].
    by rewrite Hhttp, Hreq.
Qed.

Lemma X11_witness :
  get_ns_stations
    (λ _, Ok (Response 204 "No Content" "https://gateway.apiportal.ns.nl"
                (Raise (Exn JSONDecodeError "Expecting value"))))
    api_key VNone (VBool false) (VStr "NL") VNone
  = ([OutStr "Request error occurred: Expecting value"], Ok VNone).
Proof.
  destruct (X11_status_outside_error_range
              (λ _, Ok (Response 204 "No Content"
                          "https://gateway.apiportal.ns.nl"
                          (Raise (Exn JSONDecodeError "Expecting value"))))
              api_key VNone (VBool false) (VStr "NL") VNone
              (Response 204 "No Content" "https://gateway.apiportal.ns.nl"
                 (Raise (Exn JSONDecodeError "Expecting value"))))
    as [_ Hraise].
  - reflexivity.
  - cbn [status_code]. lia.
  - apply (Hraise (Exn JSONDecodeError "Expecting value")); reflexivity.
Defined.

(** *** The entry point, for every network *)

Lemma main_request_sent :
  stations_request api_key VNone (VBool false) (VStr "NL") VNone
  = main_request.
Proof. reflexivity. Qed.


Lemma for_stations_Raise_inv l acc e :
  for_stations l acc = Raise e → ∃ o, e = no_attribute o "get".
Proof.
  revert acc. induction l as [|s l IH]; intros acc Hraise; [done|].
  cbn [for_stations] in Hraise. destruct (station_record s) eqn:Hs.
  - rewrite (station_info_flat s Hs) in Hraise.
    cbn [mbind result_bind bind] in Hraise. by eapply IH.
  - destruct (station_info_not_record s Hs) as (o & _ & Hinfo).
    rewrite Hinfo in Hraise. injection Hraise as <-. by exists o.
Qed.

Lemma ns_data_to_dataframe_Raise_inv (infer_string : bool) (data : value) (e : exn) :
  ns_data_to_dataframe infer_string data = Raise e →
  (∃ o, e = no_attribute o "get") ∨ (∃ p, e = not_iterable p).
Proof.
  intros Hraise. destruct data as [| | | | | |m];
    try (left; eexists; by injection Hraise as <-).
  unfold ns_data_to_dataframe in Hraise. cbn [get] in Hraise.
  cbn [mbind result_bind bind] in Hraise.
  destruct (default (VList []) (m !! "payload")) as [| | | | | |] eqn:Hp;
    cbn [iter mbind result_bind bind] in Hraise;
    try (right; eexists; by injection Hraise as <-).
  all: left.
  all: match type of Hraise with
       | context [for_stations ?items []] =>
           destruct (for_stations items []) as [recs|e'] eqn:Hloop;
           [discriminate Hraise|]
       end.
  all: injection Hraise as <-; by eapply for_stations_Raise_inv.
Qed.



Section entry_point.
Variable requests_get : request → result response.

Lemma main_of_fetch (infer_string : bool) out data :
  get_ns_stations requests_get api_key VNone (VBool false) (VStr "NL") VNone
  = (out, Ok data) →
  main requests_get infer_string
  = if truthy data then
      match ns_data_to_dataframe infer_string data with
      | Ok df =>
          ((out ++ [OutStr "NS Stations DataFrame:"; OutFrame df])%list, Ok ())
      | Raise err => (out, Raise err)
      end
    else ((out ++ [OutStr "Failed to retrieve NS Stations data."])%list, Ok ()).
Proof. intros Hfetch. unfold main, main_with. by rewrite Hfetch. Qed.

Lemma main_of_fetch_raise (infer_string : bool) out e :
  get_ns_stations requests_get api_key VNone (VBool false) (VStr "NL") VNone
  = (out, Raise e) →
  main requests_get infer_string = (out, Raise e).
Proof. intros Hfetch. unfold main, main_with. by rewrite Hfetch. Qed.
End entry_point.



(** X14: the failure path of the script.  An error status, and a failure of
    the requests package raised by the transport, both end in two lines,
    the diagnostic of the fetcher and then the fixed failure line, and the
    script ends without raising. *)
Theorem X14_entry_point_reports_failure (infer_string : bool)
    (requests_get : request → result response) :
  (∀ resp, requests_get main_request = Ok resp →
     (400 ≤ status_code resp < 600)%Z →
     ∃ msg, raise_for_status resp = Raise (Exn HTTPError msg)
       ∧ main requests_get infer_string
         = ([OutStr ("HTTP error occurred: " +:+ msg);
             OutStr "Failed to retrieve NS Stations data."], Ok ()))
  ∧ (∀ e, requests_get main_request = Raise e →
       is_RequestException (exn_cls e) = true →
       is_HTTPError (exn_cls e) = false →
       main requests_get infer_string
       = ([OutStr ("Request error occurred: " +:+ exn_msg e);
           OutStr "Failed to retrieve NS Stations data."], Ok ())).
Proof.
  split.
  - intros resp Hget Hst.
    destruct (raise_for_status_error resp Hst) as [msg Hmsg].
    exists msg. split; [exact Hmsg|].
    rewrite (main_of_fetch requests_get infer_string
               [OutStr ("HTTP error occurred: " +:+ msg)] VNone); [done|].
    by apply (get_ns_stations_http_error _ _ _ _ _ _ resp).
  - intros e Hget Hreq Hhttp.
    rewrite (main_of_fetch requests_get infer_string
               [OutStr ("Request error occurred: " +:+ exn_msg e)] VNone);
      [done|].
    by apply get_ns_stations_request_error.
Qed.

Lemma X14_witness :
  main net_timeout false
  = ([OutStr "Request error occurred: Read timed out.";
      OutStr "Failed to retrieve NS Stations data."], Ok ()).
Proof.
  apply (proj2 (X14_entry_point_reports_failure false net_timeout)
               (Exn Timeout "Read timed out.")); reflexivity.
Defined.

(** X15: what escapes the script.  The flattener is called without a
    handler: when the body of a successful response is truthy and the
    flattener raises on it, the exception ends the script and nothing has
    been printed; a body that is truthy and not an object, a non-empty
    JSON array for one, does so with an [AttributeError]. *)
Theorem X15_entry_point_crashes_on_malformed_body (infer_string : bool)
    (requests_get : request → result response) (resp : response)
    (body : value) :
  requests_get main_request = Ok resp →
  (200 ≤ status_code resp < 300)%Z →
  json resp = Ok body →
  truthy body = true →
  (∀ e, ns_data_to_dataframe infer_string body = Raise e →
     main requests_get infer_string = ([], Raise e))
  ∧ (is_object body = false →
     main requests_get infer_string = ([], Raise (no_attribute body "get"))).
Proof.
  intros Hget Hst Hjson Htruthy.
  assert (∀ e, ns_data_to_dataframe infer_string body = Raise e →
            main requests_get infer_string = ([], Raise e)) as Hcrash.
  { intros e Hraise. rewrite (main_of_fetch requests_get infer_string [] body).
    - by rewrite Htruthy, Hraise.
    - by apply (get_ns_stations_success _ _ _ _ _ _ resp). }
  split; [exact Hcrash|].
  intros Hobj. apply Hcrash. by destruct body.
Qed.

Lemma X15_witness :
  main (net_ok (VList [VDict ∅])) false
  = ([], Raise (no_attribute (VList [VDict ∅]) "get")).
Proof.
  apply (proj2 (X15_entry_point_crashes_on_malformed_body false
                  (net_ok (VList [VDict ∅]))
                  (Response 200 "OK"
                     "https://gateway.apiportal.ns.nl/nsapp-stations/v3?countryCodes=NL"
                     (Ok (VList [VDict ∅])))
                  (VList [VDict ∅])
                  eq_refl ltac:(cbn [status_code]; lia) eq_refl eq_refl)).
  reflexivity.
Defined.

(** X16: the script asks the network once: its outcome is the same on two
    networks that answer alike the one request it sends, a GET of the
    stations URL with the key header and the single parameter
    countryCodes=NL. *)
Theorem X16_entry_point_single_request (infer_string : bool)
    (net1 net2 : request → result response) :
  net1 main_request = net2 main_request →
  main net1 infer_string = main net2 infer_string.
Proof.
  intros Hsame. unfold main, main_with.
  by rewrite (get_ns_stations_one_request net1 net2 api_key
                VNone (VBool false) (VStr "NL") VNone Hsame).
Qed.

Lemma X16_witness :
  main (λ req,
          if Nat.eqb (length (req_params req)) 1
          then Ok (Response 200 "OK" "" (Ok utrecht))
          else Raise (Exn Timeout "Read timed out."))
       false
  = main (λ _, Ok (Response 200 "OK" "" (Ok utrecht))) false.
Proof.
  apply X16_entry_point_single_request. vm_compute; reflexivity.
Defined.

(** X17: every run of the script ends in one of three ways: the failure
    line after at most one diagnostic, without raising; the title line and
    a frame, without raising; or an exception that is not of the requests
    package, with nothing printed. *)
Theorem X17_entry_point_outcomes (infer_string : bool) (requests_get : request → result response) :
  (∃ out, (length out ≤ 1)%nat
     ∧ main requests_get infer_string
       = ((out ++ [OutStr "Failed to retrieve NS Stations data."])%list, Ok ()))
  ∨ (∃ df, main requests_get infer_string
           = ([OutStr "NS Stations DataFrame:"; OutFrame df], Ok ()))
  ∨ (∃ e, is_RequestException (exn_cls e) = false
       ∧ main requests_get infer_string = ([], Raise e)).
Proof.
  destruct (get_ns_stations requests_get api_key VNone (VBool false)
              (VStr "NL") VNone) as [out [data|e]] eqn:Hfetch.
  - pose proof (get_ns_stations_invariants requests_get api_key
                  VNone (VBool false) (VStr "NL") VNone) as Hinv.
    cbn zeta in Hinv. rewrite Hfetch in Hinv. cbn [fst snd] in Hinv.
    destruct Hinv as (Hlen & Hnone & _).
    rewrite (main_of_fetch requests_get infer_string out data Hfetch).
    destruct (truthy data) eqn:Htruthy.
    + assert (out = []) as ->.
      { destruct out as [|o out']; [done|].
        assert (Ok data = Ok VNone) as [= ->] by (by apply Hnone).
        discriminate Htruthy. }
      destruct (ns_data_to_dataframe infer_string data) as [df|e] eqn:Hflat.
      * right; left. by exists df.
      * right; right. exists e. split; [|done].
        destruct (ns_data_to_dataframe_Raise_inv infer_string data e Hflat)
          as [[o ->]|[p ->]]; reflexivity.
    + left. by exists out.
  - right; right. exists e.
    pose proof (get_ns_stations_invariants requests_get api_key
                  VNone (VBool false) (VStr "NL") VNone) as Hinv.
    cbn zeta in Hinv. rewrite Hfetch in Hinv. cbn [fst snd] in Hinv.
    destruct Hinv as (_ & Hnone & Hcls).
    assert (out = []) as ->.
    { destruct out as [|o out']; [done|]. by specialize (Hnone ltac:(done)). }
    split; [by apply Hcls|]. by apply main_of_fetch_raise.
Qed.
